(** * NotebookConcatConverter: the concatenated view of a notebook

    A shallow embedding of
    [src/client/activation/notebookConcatConverter.ts].  The class
    adapts a notebook (a list of cells, each with its own text
    document) to a single [TextDocument] and translates positions,
    ranges and structured payloads between the concatenated coordinate
    space and the cell-local ones.

    The host objects the class talks to (the notebook, the cells'
    documents, the [NotebookConcatTextDocument] engine, [path], [uuid])
    are not part of the file: they appear here as records of the
    operations the class calls on them. *)

From Stdlib Require Import ZArith Ascii String List Lia.
From stdpp Require Import base option list strings.

Local Open Scope string_scope.
Local Open Scope list_scope.
Local Open Scope nat_scope.

(** ** Values of the host API *)

(** A [vscode.Uri] is compared through [toString()] only; it is modelled
    by that string. *)
Definition Uri := string.

Definition Uri_toString (u : Uri) : string := u.

(** [vscode.Position]: zero-based line and character; the constructor
    rejects negative components, hence naturals. *)
Record Position := mkPosition { line : nat; character : nat }.

Definition isBefore (a b : Position) : bool :=
  if line a <? line b then true
  else if line b <? line a then false
  else character a <? character b.

(** [vscode.Range].  [new Range(start, end)] swaps its arguments when
    [start] is not before [end]. *)
Record Range := mkRange { start : Position; end_ : Position }.

Definition new_Range (s e : Position) : Range :=
  if isBefore s e then mkRange s e else mkRange e s.

(** [vscode.Location]: a cell identity and a cell-local range.
    [new Location(uri, position)] stores the collapsed range at
    [position]. *)
Record Location := mkLocation { loc_uri : Uri; loc_range : Range }.

Definition new_Location (u : Uri) (p : Position) : Location :=
  mkLocation u (new_Range p p).

(** Errors a call can end with. *)
Inductive JsError :=
| Error (message : string)
| TypeError (message : string).

Inductive Result (A : Type) :=
| Ok (a : A)
| Throw (e : JsError).
Arguments Ok {A} a.
Arguments Throw {A} e.

(** A value that may be [null] or [undefined]. *)
Inductive Nullable (A : Type) :=
| Null
| Undefined
| Val (a : A).
Arguments Null {A}.
Arguments Undefined {A}.
Arguments Val {A} a.

Definition RegExp := string.

Record TextLine := mkTextLine {
  lineNumber : nat;
  text : string;
  isEmptyOrWhitespace : bool
}.

(** The part of [vscode.TextDocument] the class uses on a cell's
    document. *)
Record TextDocument := mkTextDocument {
  doc_uri : Uri;
  doc_lineCount : nat;
  doc_lineAt : Position -> Result TextLine;
  doc_getWordRangeAtPosition : Position -> Nullable RegExp -> Nullable Range;
  doc_positionAt : nat -> Position
}.

Record NotebookCell := mkNotebookCell {
  cell_uri : Uri;
  document : TextDocument
}.

Record NotebookDocument := mkNotebookDocument {
  nb_uri : Uri;
  nb_fsPath : string;
  nb_isUntitled : bool;
  languages : list string;
  nb_isDirty : bool;
  cells : list NotebookCell
}.

(** [vscode.NotebookConcatTextDocument], the concatenation engine.
    [positionAt] is overloaded on an offset and on a [Location]; the
    class only ever passes a [Position] to [locationAt]. *)
Record NotebookConcatTextDocument := mkEngine {
  eng_isClosed : bool;
  eng_getText : option Range -> string;
  eng_offsetAt : Position -> nat;
  eng_positionAt_offset : nat -> Position;
  eng_positionAt : Location -> Position;
  eng_locationAt : Position -> Location;
  eng_validateRange : Range -> Range;
  eng_validatePosition : Position -> Position;
  eng_contains : Uri -> bool
}.

Definition DocumentSelector := string.

(** [IVSCodeNotebook]: only the factory of engines is used. *)
Record IVSCodeNotebook := mkNotebookApi {
  createConcatTextDocument :
    NotebookDocument -> DocumentSelector -> NotebookConcatTextDocument
}.

(** What the constructor takes from the platform: [path], [uuid/v4],
    [Uri.file], and the [HiddenFileFormatString] constant with the
    [format] string extension of [../constants] and the common
    extensions, none of which is in this file. *)
Record Platform := mkPlatform {
  path_dirname : string -> string;
  path_join : string -> string -> string;
  uuid : string;
  HiddenFileFormatString : string;
  format : string -> string -> string;
  Uri_file : string -> Uri
}.

Inductive EndOfLine := LF | CRLF.

(** ** Payloads that embed ranges *)

Record Hover := mkHover {
  hover_contents : list string;
  hover_range : Nullable Range
}.

(** [CompletionItem.range] is absent, a [Range], or a pair of
    inserting/replacing ranges. *)
Inductive ItemRange :=
| NoRange
| SimpleRange (r : Range)
| InsertReplace (inserting replacing : Range).

Record TextEdit := mkTextEdit { edit_range : Range; newText : string }.

Record CompletionItem := mkCompletionItem {
  label : string;
  kind : option nat;
  tags : list nat;
  detail : option string;
  documentation : option string;
  sortText : option string;
  filterText : option string;
  preselect : option bool;
  insertText : option string;
  commitCharacters : list string;
  keepWhitespace : option bool;
  additionalTextEdits : list TextEdit;
  command : option string;
  item_range : ItemRange
}.

Record CompletionList := mkCompletionList {
  isIncomplete : option bool;
  items : list CompletionItem
}.

(** [CompletionItem[] | CompletionList | null | undefined]. *)
Inductive Completions :=
| CompletionsNull
| CompletionsUndefined
| CompletionArray (l : list CompletionItem)
| CompletionWrapper (l : CompletionList).

Record TextDocumentContentChangeEvent := mkContentChange {
  ev_range : Range;
  ev_rangeLength : nat;
  ev_rangeOffset : nat;
  ev_text : string
}.

Record TextDocumentChangeEvent := mkChangeEvent {
  ev_document : TextDocument;
  contentChanges : list TextDocumentContentChangeEvent
}.

(** ** Array primitives *)

(** [Array.prototype.find]: the first element satisfying the predicate,
    [undefined] when there is none. *)
Fixpoint js_find {A} (f : A -> bool) (l : list A) : option A :=
  match l with
  | [] => None
  | x :: l' => if f x then Some x else js_find f l'
  end.

(** [Array.prototype.reduce] without an initial value: the first element
    seeds the accumulator; on an empty array it throws a [TypeError]. *)
Definition js_reduce {A} (f : A -> A -> A) (l : list A) : Result A :=
  match l with
  | [] => Throw (TypeError "Reduce of empty array with no initial value")
  | x :: l' => Ok (fold_left f l' x)
  end.

(** [s.replace(/-/g, '')]. *)
Fixpoint strip_hyphens (s : string) : string :=
  match s with
  | EmptyString => EmptyString
  | String c s' =>
      if Ascii.eqb c "-"%char then strip_hyphens s'
      else String c (strip_hyphens s')
  end.

(** ** The class *)

(** The fields of a [NotebookConcatConverter].  [notebookDoc] and
    [concatDocument] are references to objects owned by the host: the
    fields hold what those objects currently are, and an edit of the
    notebook by the host replaces them (see [host_edit]).  There is no
    field caching a line count. *)
Record NotebookConcatConverter := mkConverter {
  firedOpen : bool;
  firedClose : bool;
  notebookDoc : NotebookDocument;
  notebookApi : IVSCodeNotebook;
  concatDocument : NotebookConcatTextDocument;
  dummyFilePath : string;
  dummyUri : Uri;
  _version : Z  (* an integer-valued number, counted up by ones *)
}.

Definition set_version (v : Z) (this : NotebookConcatConverter) :=
  mkConverter (firedOpen this) (firedClose this) (notebookDoc this)
    (notebookApi this) (concatDocument this) (dummyFilePath this)
    (dummyUri this) v.

(** Methods run on [this] and end with a value or an error; the only
    state they can touch is the receiver. *)
Definition M (A : Type) : Type :=
  NotebookConcatConverter -> Result A * NotebookConcatConverter.

Definition ret {A} (a : A) : M A := fun this => (Ok a, this).

Definition throw {A} (e : JsError) : M A := fun this => (Throw e, this).

Definition bind {A B} (m : M A) (k : A -> M B) : M B :=
  fun this =>
    match m this with
    | (Ok a, this') => k a this'
    | (Throw e, this') => (Throw e, this')
    end.

Definition read {A} (f : NotebookConcatConverter -> A) : M A :=
  fun this => (Ok (f this), this).

Definition lift {A} (r : Result A) : M A := fun this => (r, this).

Definition update (f : NotebookConcatConverter -> NotebookConcatConverter)
  : M unit :=
  fun this => (Ok tt, f this).

Notation "x <- m ;; k" := (bind m (fun x => k))
  (at level 100, m at next level, right associativity).

(** *** Construction *)

Definition new_NotebookConcatConverter (pf : Platform)
    (notebookDoc : NotebookDocument) (notebookApi : IVSCodeNotebook)
    (selector : DocumentSelector) : NotebookConcatConverter :=
  let dir := path_dirname pf (nb_fsPath notebookDoc) in
  let dummyFilePath :=
    path_join pf dir
      (format pf (HiddenFileFormatString pf) (strip_hyphens (uuid pf))) in
  {| firedOpen := false;
     firedClose := false;
     notebookDoc := notebookDoc;
     notebookApi := notebookApi;
     concatDocument := createConcatTextDocument notebookApi notebookDoc selector;
     dummyFilePath := dummyFilePath;
     dummyUri := Uri_file pf dummyFilePath;
     _version := 1 |}.

(** *** Getters *)

Definition notebookUri (this : NotebookConcatConverter) : Uri :=
  nb_uri (notebookDoc this).

Definition uri (this : NotebookConcatConverter) : Uri := dummyUri this.

Definition fileName (this : NotebookConcatConverter) : string :=
  dummyFilePath this.

Definition isUntitled (this : NotebookConcatConverter) : bool :=
  nb_isUntitled (notebookDoc this).

Definition languageId (this : NotebookConcatConverter) : option string :=
  languages (notebookDoc this) !! 0.

Definition version (this : NotebookConcatConverter) : Z := _version this.

Definition isDirty (this : NotebookConcatConverter) : bool :=
  nb_isDirty (notebookDoc this).

Definition isClosed (this : NotebookConcatConverter) : bool :=
  eng_isClosed (concatDocument this).

Definition eol (this : NotebookConcatConverter) : EndOfLine := LF.

Definition lineCount : M nat :=
  this <- read id ;;
  lift (js_reduce (fun p c => p + c)
          (map (fun c => doc_lineCount (document c)) (cells (notebookDoc this)))).

(** *** Queries *)

Definition isCellOfDocument (this : NotebookConcatConverter) (uri : Uri) : bool :=
  eng_contains (concatDocument this) uri.

Definition save : M bool := throw (Error "Not implemented").

(** [cells.find((c) => c.uri.toString() === location.uri.toString())]. *)
Definition find_cell (this : NotebookConcatConverter) (location : Location)
  : option NotebookCell :=
  js_find
    (fun c => String.eqb (Uri_toString (cell_uri c))
                         (Uri_toString (loc_uri location)))
    (cells (notebookDoc this)).

(** [cell!.document]: the assertion is erased at run time; reading a
    property of [undefined] is a [TypeError]. *)
Definition cell_document_of (cell : option NotebookCell) : Result TextDocument :=
  match cell with
  | Some c => Ok (document c)
  | None => Throw (TypeError "Cannot read property 'document' of undefined")
  end.

Definition lineAt (posOrNumber : Position + nat) : M TextLine :=
  this <- read id ;;
  let position :=
    match posOrNumber with
    | inr n => mkPosition n 0
    | inl p => p
    end in
  let location := eng_locationAt (concatDocument this) position in
  let cell := find_cell this location in
  doc <- lift (cell_document_of cell) ;;
  lift (doc_lineAt doc (start (loc_range location))).

Definition offsetAt (this : NotebookConcatConverter) (position : Position) : nat :=
  eng_offsetAt (concatDocument this) position.

Definition positionAt (this : NotebookConcatConverter) (offset : nat) : Position :=
  eng_positionAt_offset (concatDocument this) offset.

Definition getText (this : NotebookConcatConverter) (range : Nullable Range)
  : string :=
  match range with
  | Val r => eng_getText (concatDocument this) (Some r)
  | _ => eng_getText (concatDocument this) None
  end.

Definition getWordRangeAtPosition (position : Position)
    (regexp : Nullable RegExp) : M (Nullable Range) :=
  this <- read id ;;
  let location := eng_locationAt (concatDocument this) position in
  let cell := find_cell this location in
  doc <- lift (cell_document_of cell) ;;
  ret (doc_getWordRangeAtPosition doc (start (loc_range location)) regexp).

Definition validateRange (this : NotebookConcatConverter) (range : Range) : Range :=
  eng_validateRange (concatDocument this) range.

Definition validatePosition (this : NotebookConcatConverter) (pos : Position)
  : Position :=
  eng_validatePosition (concatDocument this) pos.

(** [getConcatDocument] answers with the receiver itself or with its
    argument. *)
Inductive ConcatOrCell :=
| This (this : NotebookConcatConverter)
| Cell (cell : TextDocument).

Definition getConcatDocument (this : NotebookConcatConverter)
    (cell : TextDocument) : ConcatOrCell :=
  if isCellOfDocument this (doc_uri cell) then This this else Cell cell.

(** *** Translation, cell-local to concatenated *)

Definition toOutgoingPosition (this : NotebookConcatConverter)
    (cell : TextDocument) (position : Position) : Position :=
  eng_positionAt (concatDocument this) (new_Location (doc_uri cell) position).

Definition toOutgoingRange (this : NotebookConcatConverter)
    (cell : TextDocument) (cellRange : Range) : Range :=
  let startPos :=
    eng_positionAt (concatDocument this)
      (new_Location (doc_uri cell) (start cellRange)) in
  let endPos :=
    eng_positionAt (concatDocument this)
      (new_Location (doc_uri cell) (end_ cellRange)) in
  new_Range startPos endPos.

Definition toOutgoingOffset (this : NotebookConcatConverter)
    (cell : TextDocument) (offset : nat) : nat :=
  let position := doc_positionAt cell offset in
  let overallPosition :=
    eng_positionAt (concatDocument this) (new_Location (doc_uri cell) position) in
  eng_offsetAt (concatDocument this) overallPosition.

Definition toOutgoingContentChangeEvent (this : NotebookConcatConverter)
    (cell : TextDocument) (ev : TextDocumentContentChangeEvent)
  : TextDocumentContentChangeEvent :=
  {| ev_range := toOutgoingRange this cell (ev_range ev);
     ev_rangeLength := ev_rangeLength ev;
     ev_rangeOffset := toOutgoingOffset this cell (ev_rangeOffset ev);
     ev_text := ev_text ev |}.

(** The object [toOutgoingChangeEvent] builds. *)
Record OutgoingChangeEvent := mkOutgoingChangeEvent {
  out_document : ConcatOrCell;
  out_contentChanges : list TextDocumentContentChangeEvent
}.

Definition toOutgoingChangeEvent (this : NotebookConcatConverter)
    (cellEvent : TextDocumentChangeEvent) : OutgoingChangeEvent :=
  {| out_document := getConcatDocument this (ev_document cellEvent);
     out_contentChanges :=
       map (toOutgoingContentChangeEvent this (ev_document cellEvent))
           (contentChanges cellEvent) |}.

(** *** Translation, concatenated to cell-local *)

Definition toIncomingRange (this : NotebookConcatConverter) (range : Range)
  : Range :=
  let startLoc := eng_locationAt (concatDocument this) (start range) in
  let endLoc := eng_locationAt (concatDocument this) (end_ range) in
  new_Range (start (loc_range startLoc)) (end_ (loc_range endLoc)).

(** [{ ...hover, range: r }] and [{ ...item, range: r }]: every own
    property is copied, [range] is replaced. *)
Definition hover_with_range (hover : Hover) (r : Range) : Hover :=
  {| hover_contents := hover_contents hover; hover_range := Val r |}.

Definition item_with_range (item : CompletionItem) (r : ItemRange)
  : CompletionItem :=
  {| label := label item;
     kind := kind item;
     tags := tags item;
     detail := detail item;
     documentation := documentation item;
     sortText := sortText item;
     filterText := filterText item;
     preselect := preselect item;
     insertText := insertText item;
     commitCharacters := commitCharacters item;
     keepWhitespace := keepWhitespace item;
     additionalTextEdits := additionalTextEdits item;
     command := command item;
     item_range := r |}.

Definition toIncomingHover (this : NotebookConcatConverter)
    (_cell : TextDocument) (hover : Nullable Hover) : Nullable Hover :=
  match hover with
  | Val h =>
      match hover_range h with
      | Val r => Val (hover_with_range h (toIncomingRange this r))
      | _ => hover
      end
  | _ => hover
  end.

Definition toIncomingCompletion (this : NotebookConcatConverter)
    (item : CompletionItem) : CompletionItem :=
  match item_range item with
  | SimpleRange r =>
      item_with_range item (SimpleRange (toIncomingRange this r))
  | InsertReplace inserting replacing =>
      item_with_range item
        (InsertReplace (toIncomingRange this inserting)
                       (toIncomingRange this replacing))
  | NoRange => item
  end.

Definition toIncomingCompletions (this : NotebookConcatConverter)
    (_cell : TextDocument) (completions : Completions) : Completions :=
  match completions with
  | CompletionArray l => CompletionArray (map (toIncomingCompletion this) l)
  | CompletionWrapper w =>
      CompletionWrapper
        {| isIncomplete := isIncomplete w;
           items := map (toIncomingCompletion this) (items w) |}
  | _ => completions
  end.

(** *** Change notifications *)

Definition onDidChange : M unit :=
  update (fun this => set_version (_version this + 1) this).

(** ** The adapter over time

    What can happen to a converter once constructed: a read of a
    property, a call of a public method, a change notification of the
    engine (the constructor subscribed [onDidChange] to it), and, on the
    host's side, an edit of the notebook, after which the two referenced
    objects have a new content. *)
Inductive Event :=
| Get_notebookUri | Get_uri | Get_fileName | Get_isUntitled
| Get_languageId | Get_version | Get_isDirty | Get_isClosed | Get_eol
| Get_lineCount
| Call_isCellOfDocument (uri : Uri)
| Call_save
| Call_lineAt (posOrNumber : Position + nat)
| Call_offsetAt (position : Position)
| Call_positionAt (offset : nat)
| Call_getText (range : Nullable Range)
| Call_getWordRangeAtPosition (position : Position) (regexp : Nullable RegExp)
| Call_validateRange (range : Range)
| Call_validatePosition (pos : Position)
| Call_getConcatDocument (cell : TextDocument)
| Call_toOutgoingChangeEvent (cellEvent : TextDocumentChangeEvent)
| Call_toOutgoingPosition (cell : TextDocument) (position : Position)
| Call_toOutgoingRange (cell : TextDocument) (cellRange : Range)
| Call_toOutgoingOffset (cell : TextDocument) (offset : nat)
| Call_toIncomingHover (cell : TextDocument) (hover : Nullable Hover)
| Call_toIncomingCompletions (cell : TextDocument) (completions : Completions)
| Notification
| Host_edit (notebook : NotebookDocument) (engine : NotebookConcatTextDocument).

Definition host_edit (notebook : NotebookDocument)
    (engine : NotebookConcatTextDocument) (this : NotebookConcatConverter)
  : NotebookConcatConverter :=
  mkConverter (firedOpen this) (firedClose this) notebook (notebookApi this)
    engine (dummyFilePath this) (dummyUri this) (_version this).

(** A run of a method with its value forgotten. *)
Definition observe {A} (m : M A) : M unit := _ <- m ;; ret tt.

Definition handle (ev : Event) : M unit :=
  match ev with
  | Get_notebookUri => observe (read notebookUri)
  | Get_uri => observe (read uri)
  | Get_fileName => observe (read fileName)
  | Get_isUntitled => observe (read isUntitled)
  | Get_languageId => observe (read languageId)
  | Get_version => observe (read version)
  | Get_isDirty => observe (read isDirty)
  | Get_isClosed => observe (read isClosed)
  | Get_eol => observe (read eol)
  | Get_lineCount => observe lineCount
  | Call_isCellOfDocument u => observe (read (fun this => isCellOfDocument this u))
  | Call_save => observe save
  | Call_lineAt x => observe (lineAt x)
  | Call_offsetAt p => observe (read (fun this => offsetAt this p))
  | Call_positionAt n => observe (read (fun this => positionAt this n))
  | Call_getText r => observe (read (fun this => getText this r))
  | Call_getWordRangeAtPosition p re => observe (getWordRangeAtPosition p re)
  | Call_validateRange r => observe (read (fun this => validateRange this r))
  | Call_validatePosition p => observe (read (fun this => validatePosition this p))
  | Call_getConcatDocument c => observe (read (fun this => getConcatDocument this c))
  | Call_toOutgoingChangeEvent e =>
      observe (read (fun this => toOutgoingChangeEvent this e))
  | Call_toOutgoingPosition c p =>
      observe (read (fun this => toOutgoingPosition this c p))
  | Call_toOutgoingRange c r =>
      observe (read (fun this => toOutgoingRange this c r))
  | Call_toOutgoingOffset c n =>
      observe (read (fun this => toOutgoingOffset this c n))
  | Call_toIncomingHover c h =>
      observe (read (fun this => toIncomingHover this c h))
  | Call_toIncomingCompletions c cs =>
      observe (read (fun this => toIncomingCompletions this c cs))
  | Notification => onDidChange
  | Host_edit nb e => update (host_edit nb e)
  end.

(** The converter after a sequence of events; an error ends the call
    that raised it, not the converter. *)
Definition after (evs : list Event) (this : NotebookConcatConverter)
  : NotebookConcatConverter :=
  fold_left (fun this ev => snd (handle ev this)) evs this.

Definition is_notification (ev : Event) : bool :=
  match ev with Notification => true | _ => false end.

Definition notifications (evs : list Event) : nat :=
  length (filter (fun ev => is_notification ev = true) evs).

(** ** Auxiliary notions for the statements *)

(** [frames m]: whatever [m] ends with, the receiver is as before. *)
Definition frames {A} (m : M A) : Prop := forall this, snd (m this) = this.

(** Every event but a notification and a host edit frames the
    converter. *)
Definition is_query (ev : Event) : bool :=
  match ev with
  | Notification | Host_edit _ _ => false
  | _ => true
  end.

(** The line counts of the cells, in order. *)
Definition cell_lineCounts (this : NotebookConcatConverter) : list nat :=
  map (fun c => doc_lineCount (document c)) (cells (notebookDoc this)).

(** The assumption on the engine under which translations round-trip:
    [locationAt] sends a position to the location of a cell-local
    position, and [positionAt] sends that location back. *)
Record mutually_inverse (e : NotebookConcatTextDocument) : Prop := {
  locationAt_point :
    forall P, exists u p, eng_locationAt e P = new_Location u p;
  positionAt_locationAt :
    forall P, eng_positionAt e (eng_locationAt e P) = P
}.

(** The position [lineAt] starts from. *)
Definition normalized (posOrNumber : Position + nat) : Position :=
  match posOrNumber with
  | inr n => {| line := n; character := 0 |}
  | inl p => p
  end.

(** Two content-change records that differ at most in [range] and
    [rangeOffset]. *)
Definition same_change_payload (ev ev' : TextDocumentContentChangeEvent) : Prop :=
  ev_text ev' = ev_text ev /\ ev_rangeLength ev' = ev_rangeLength ev.

(** Two completion items that differ at most in [range]. *)
Definition same_item_fields (item item' : CompletionItem) : Prop :=
  label item' = label item
  /\ kind item' = kind item
  /\ tags item' = tags item
  /\ detail item' = detail item
  /\ documentation item' = documentation item
  /\ sortText item' = sortText item
  /\ filterText item' = filterText item
  /\ preselect item' = preselect item
  /\ insertText item' = insertText item
  /\ commitCharacters item' = commitCharacters item
  /\ keepWhitespace item' = keepWhitespace item
  /\ additionalTextEdits item' = additionalTextEdits item
  /\ command item' = command item.

(** [item'] is [item] with its range, or each of its two ranges, sent
    through [f], and is [item] when there is no range. *)
Definition range_rewritten (f : Range -> Range) (item item' : CompletionItem)
  : Prop :=
  same_item_fields item item'
  /\ match item_range item with
     | NoRange => item' = item
     | SimpleRange r => item_range item' = SimpleRange (f r)
     | InsertReplace inserting replacing =>
         item_range item' = InsertReplace (f inserting) (f replacing)
     end.

(** A range whose end is not before its start. *)
Definition ordered (r : Range) : Prop := isBefore (end_ r) (start r) = false.

Definition is_host_edit (ev : Event) : bool :=
  match ev with Host_edit _ _ => true | _ => false end.

(** The number of hyphens of a string. *)
Fixpoint hyphens (s : string) : nat :=
  match s with
  | EmptyString => 0
  | String c s' => (if Ascii.eqb c "-"%char then 1 else 0) + hyphens s'
  end.

(** ** Sample objects

    Small concrete notebooks used by the examples below. *)

(** A cell document holding the given lines.  Word ranges and offsets
    are not modelled: there is no word anywhere and an offset is a
    column of the first line. *)
Definition lines_document (u : Uri) (ls : list string) : TextDocument :=
  {| doc_uri := u;
     doc_lineCount := length ls;
     doc_lineAt := fun p =>
       match ls !! line p with
       | Some t => Ok (mkTextLine (line p) t (String.eqb t ""))
       | None => Throw (Error "Illegal value for `line`")
       end;
     doc_getWordRangeAtPosition := fun _ _ => Undefined;
     doc_positionAt := fun n => mkPosition 0 n |}.

Definition lines_cell (u : Uri) (ls : list string) : NotebookCell :=
  mkNotebookCell u (lines_document u ls).

(** The cell owning a line of the concatenation and the line inside it.
    Nothing is clamped: the last cell takes every line past the end. *)
Fixpoint locate (cs : list NotebookCell) (ln : nat) : Uri * nat :=
  match cs with
  | [] => ("", ln)
  | [c] => (cell_uri c, ln)
  | c :: cs' =>
      if ln <? doc_lineCount (document c) then (cell_uri c, ln)
      else locate cs' (ln - doc_lineCount (document c))
  end.

(** The number of lines before the cell of a given identity. *)
Fixpoint first_line (cs : list NotebookCell) (u : Uri) : nat :=
  match cs with
  | [] => 0
  | c :: cs' =>
      if String.eqb (cell_uri c) u then 0
      else doc_lineCount (document c) + first_line cs' u
  end.

(** A line-indexed engine over a list of cells; text and offsets are not
    modelled. *)
Definition engine_of (cs : list NotebookCell) : NotebookConcatTextDocument :=
  {| eng_isClosed := false;
     eng_getText := fun _ => "";
     eng_offsetAt := fun p => character p;
     eng_positionAt_offset := fun n => mkPosition 0 n;
     eng_positionAt := fun l =>
       mkPosition (first_line cs (loc_uri l) + line (start (loc_range l)))
                  (character (start (loc_range l)));
     eng_locationAt := fun p =>
       let '(u, ln) := locate cs (line p) in
       new_Location u (mkPosition ln (character p));
     eng_validateRange := fun r => r;
     eng_validatePosition := fun p => p;
     eng_contains := fun u =>
       bool_decide (u ∈ map cell_uri cs) |}.

Definition sample_platform : Platform :=
  {| path_dirname := fun _ => "/work";
     path_join := fun d f => d +:+ "/" +:+ f;
     uuid := "0f8fad5b-d9cb-469f-a165-70867728950e";
     HiddenFileFormatString := "_HiddenFile_{0}.py";
     format := fun _ token => "_HiddenFile_" +:+ token +:+ ".py";
     Uri_file := fun p => "file://" +:+ p |}.

Definition sample_api : IVSCodeNotebook :=
  {| createConcatTextDocument := fun nb _ => engine_of (cells nb) |}.

Definition notebook_of (cs : list NotebookCell) : NotebookDocument :=
  {| nb_uri := "file:///work/nb.ipynb";
     nb_fsPath := "/work/nb.ipynb";
     nb_isUntitled := false;
     languages := ["python"];
     nb_isDirty := false;
     cells := cs |}.

Definition cellA : NotebookCell := lines_cell "cell:A" ["print(1)"].
Definition cellB : NotebookCell := lines_cell "cell:B" ["print(2)"].

Definition two_cells : NotebookConcatConverter :=
  new_NotebookConcatConverter sample_platform (notebook_of [cellA; cellB])
    sample_api "python".

Definition no_cells : NotebookConcatConverter :=
  new_NotebookConcatConverter sample_platform (notebook_of [])
    sample_api "python".

Definition two_cells_reversed : NotebookConcatConverter :=
  new_NotebookConcatConverter sample_platform (notebook_of [cellB; cellA])
    sample_api "python".

(** ** Properties *)

(** *** Examples from the scenarios *)

Example two_cells_lineCount : fst (lineCount two_cells) = Ok 2.
Proof. reflexivity. Qed.

Example two_cells_lineAt_1 :
  fst (lineAt (inr 1) two_cells) = doc_lineAt (document cellB) (mkPosition 0 0).
Proof. reflexivity. Qed.

Example two_cells_fileName :
  fileName two_cells = "/work/_HiddenFile_0f8fad5bd9cb469fa16570867728950e.py".
Proof. reflexivity. Qed.

(** *** Methods that leave the receiver alone *)

Lemma frames_ret {A} (a : A) : frames (ret a).
Proof. intros this. reflexivity. Qed.

Lemma frames_throw {A} (e : JsError) : frames (@throw A e).
Proof. intros this. reflexivity. Qed.

Lemma frames_read {A} (f : NotebookConcatConverter -> A) : frames (read f).
Proof. intros this. reflexivity. Qed.

Lemma frames_lift {A} (r : Result A) : frames (lift r).
Proof. intros this. reflexivity. Qed.

Lemma frames_bind {A B} (m : M A) (k : A -> M B) :
  frames m -> (forall a, frames (k a)) -> frames (bind m k).
Proof.
  intros Hm Hk this. unfold bind.
  specialize (Hm this). destruct (m this) as [[a|e] this']; simpl in *; subst.
  - apply Hk.
  - reflexivity.
Qed.

Lemma frames_observe {A} (m : M A) : frames m -> frames (observe m).
Proof. intros Hm. apply frames_bind; [exact Hm | intros; apply frames_ret]. Qed.

Create HintDb frames discriminated.
#[local] Hint Resolve frames_ret frames_throw frames_read frames_lift
  frames_observe : frames.
#[local] Hint Extern 2 (frames (bind _ _)) =>
  apply frames_bind; [ | intros ] : frames.

Lemma frames_lineCount : frames lineCount.
Proof. unfold lineCount. auto with frames. Qed.

Lemma frames_save : frames save.
Proof. unfold save. auto with frames. Qed.

Lemma frames_lineAt x : frames (lineAt x).
Proof. unfold lineAt. auto 6 with frames. Qed.

Lemma frames_getWordRangeAtPosition p re : frames (getWordRangeAtPosition p re).
Proof. unfold getWordRangeAtPosition. auto 6 with frames. Qed.

Lemma handle_query ev : is_query ev = true -> frames (handle ev).
Proof.
  destruct ev; intros Hq; try discriminate; unfold handle;
    apply frames_observe;
    auto using frames_lineCount, frames_save, frames_lineAt,
      frames_getWordRangeAtPosition with frames.
Qed.

Lemma handle_version ev this :
  version (snd (handle ev this))
  = (if is_notification ev then version this + 1 else version this)%Z.
Proof.
  destruct (is_query ev) eqn:Hq.
  - rewrite (handle_query ev Hq this). destruct ev; try reflexivity; discriminate.
  - destruct ev; try discriminate; reflexivity.
Qed.

Lemma after_app evs1 evs2 this :
  after (evs1 ++ evs2) this = after evs2 (after evs1 this).
Proof. unfold after. apply fold_left_app. Qed.

Lemma notifications_snoc evs ev :
  notifications (evs ++ [ev])
  = notifications evs + (if is_notification ev then 1 else 0).
Proof.
  unfold notifications. rewrite filter_app, length_app. f_equal.
  destruct ev; reflexivity.
Qed.

Lemma after_version evs this :
  version (after evs this) = (version this + Z.of_nat (notifications evs))%Z.
Proof.
  induction evs as [|ev evs IH] using rev_ind.
  - simpl. unfold notifications. simpl. lia.
  - rewrite after_app, notifications_snoc. simpl.
    rewrite handle_version, IH.
    destruct (is_notification ev); lia.
Qed.

(** C2.  The version is 1 once the converter is constructed; after any
    sequence of events it is 1 plus the number of change notifications
    in the sequence: a notification adds exactly 1, every other event
    (reads, method calls, host edits) leaves it as it is, and it never
    decreases. *)
Theorem version_counts_notifications
    (pf : Platform) (nb : NotebookDocument) (api : IVSCodeNotebook)
    (selector : DocumentSelector) (evs : list Event) :
  let fresh := new_NotebookConcatConverter pf nb api selector in
  version fresh = 1%Z
  /\ version (after evs fresh) = (1 + Z.of_nat (notifications evs))%Z
  /\ (forall this, version (snd (handle Notification this)) = (version this + 1)%Z)
  /\ (forall ev this, is_notification ev = false ->
        version (snd (handle ev this)) = version this)
  /\ (forall evs' this, (version this <= version (after evs' this))%Z).
Proof.
  intros fresh. repeat split.
  - rewrite after_version. reflexivity.
  - intros ev this Hev. rewrite handle_version, Hev. reflexivity.
  - intros evs' this. rewrite after_version. lia.
Qed.

(** *** Line count *)

Lemma fold_left_add (l : list nat) (x : nat) :
  fold_left (fun p c => p + c) l x = x + sum_list l.
Proof.
  revert x. induction l as [|y l IH]; intros x; simpl.
  - lia.
  - rewrite IH. lia.
Qed.

(** On a notebook with at least one cell the getter returns the sum. *)
Lemma lineCount_sum this :
  cells (notebookDoc this) <> [] ->
  lineCount this = (Ok (sum_list (cell_lineCounts this)), this).
Proof.
  intros Hne. unfold lineCount, bind, read, lift, cell_lineCounts. simpl.
  destruct (cells (notebookDoc this)) as [|c cs]; [congruence|].
  simpl. rewrite fold_left_add. reflexivity.
Qed.

(** The sum is taken over the notebook as it is at the access: after a
    host edit it is the sum over the new cells. *)
Lemma lineCount_after_host_edit nb e this :
  cells nb <> [] ->
  fst (lineCount (host_edit nb e this))
  = Ok (sum_list (map (fun c => doc_lineCount (document c)) (cells nb))).
Proof.
  intros Hne. rewrite lineCount_sum by exact Hne. reflexivity.
Qed.

(** C3.  On the notebook without cells the sum of the line counts is 0,
    and the getter does not return it: the [reduce] has no initial
    value and throws. *)
Theorem lineCount_no_cells_not_sum :
  sum_list (cell_lineCounts no_cells) = 0
  /\ fst (lineCount no_cells)
     = Throw (TypeError "Reduce of empty array with no initial value")
  /\ fst (lineCount no_cells) <> Ok (sum_list (cell_lineCounts no_cells)).
Proof. repeat split. discriminate. Qed.

(** C10.  On a notebook whose cell list is empty, reading [lineCount]
    ends with a [TypeError] and returns no number, 0 included. *)
Theorem lineCount_empty_throws (this : NotebookConcatConverter) :
  cells (notebookDoc this) = [] ->
  lineCount this
  = (Throw (TypeError "Reduce of empty array with no initial value"), this)
  /\ forall n, fst (lineCount this) <> Ok n.
Proof.
  intros Hnil. unfold lineCount, bind, read, lift. simpl. rewrite Hnil. simpl.
  split; [reflexivity | discriminate].
Qed.

Lemma lineCount_empty_throws_witness :
  cells (notebookDoc no_cells) = []
  /\ lineCount no_cells
     = (Throw (TypeError "Reduce of empty array with no initial value"), no_cells).
Proof.
  split; [reflexivity|].
  apply (lineCount_empty_throws no_cells). reflexivity.
Defined.

(** *** save *)

(** C5.  [save] throws on every converter, whatever happened to it
    before; it returns nothing and the converter is as it was. *)
Theorem save_always_throws (evs : list Event) (this : NotebookConcatConverter) :
  save this = (Throw (Error "Not implemented"), this)
  /\ save (after evs this) = (Throw (Error "Not implemented"), after evs this)
  /\ (forall b, fst (save this) <> Ok b)
  /\ snd (handle Call_save this) = this.
Proof. repeat split. discriminate. Qed.

(** *** Round trip of a position *)

Lemma isBefore_irrefl p : isBefore p p = false.
Proof. unfold isBefore. rewrite !Nat.ltb_irrefl. reflexivity. Qed.

Lemma new_Range_same p : new_Range p p = mkRange p p.
Proof. unfold new_Range. rewrite isBefore_irrefl. reflexivity. Qed.

Lemma new_Location_range u p : loc_range (new_Location u p) = mkRange p p.
Proof. unfold new_Location. simpl. apply new_Range_same. Qed.

(** Under [mutually_inverse] the other composition is the identity too,
    on the locations the engine hands out. *)
Lemma locationAt_positionAt e L :
  mutually_inverse e ->
  (exists P, L = eng_locationAt e P) ->
  eng_locationAt e (eng_positionAt e L) = L.
Proof.
  intros He [P ->]. rewrite (positionAt_locationAt e He). reflexivity.
Qed.

(** C1.  When the engine's [locationAt] and [positionAt] are mutually
    inverse, sending the zero-width range at a concatenated position [P]
    through [toIncomingRange] and the start of the result through
    [toOutgoingPosition], with the cell whose identity is that of the
    start location, gives [P] back. *)
Theorem incoming_outgoing_roundtrip
    (this : NotebookConcatConverter) (cell : TextDocument) (P : Position) :
  mutually_inverse (concatDocument this) ->
  doc_uri cell = loc_uri (eng_locationAt (concatDocument this) P) ->
  toOutgoingPosition this cell (start (toIncomingRange this (new_Range P P))) = P.
Proof.
  intros He Hcell.
  destruct (locationAt_point _ He P) as (u & p & Hloc).
  unfold toOutgoingPosition, toIncomingRange.
  rewrite new_Range_same. simpl.
  rewrite Hcell, Hloc, new_Location_range. simpl.
  rewrite new_Range_same. simpl.
  rewrite <- Hloc. apply (positionAt_locationAt _ He).
Qed.

Lemma engine_of_two_cells_inverse :
  mutually_inverse (engine_of [cellA; cellB]).
Proof.
  split.
  - intros [l c]. simpl. destruct (l <? 1); eauto.
  - intros [l c]. simpl.
    destruct (l <? 1) eqn:Hl; simpl; rewrite new_Range_same; simpl.
    + apply Nat.ltb_lt in Hl. f_equal; lia.
    + apply Nat.ltb_ge in Hl. f_equal; lia.
Qed.

Lemma incoming_outgoing_roundtrip_witness :
  mutually_inverse (concatDocument two_cells)
  /\ doc_uri (document cellB)
     = loc_uri (eng_locationAt (concatDocument two_cells) (mkPosition 1 4))
  /\ toOutgoingPosition two_cells (document cellB)
       (start (toIncomingRange two_cells
                 (new_Range (mkPosition 1 4) (mkPosition 1 4))))
     = mkPosition 1 4.
Proof.
  split; [exact engine_of_two_cells_inverse|].
  split; [reflexivity|].
  apply (incoming_outgoing_roundtrip two_cells (document cellB) (mkPosition 1 4)).
  - exact engine_of_two_cells_inverse.
  - reflexivity.
Defined.

(** *** lineAt *)

Lemma js_find_spec {A} (f : A -> bool) (l : list A) :
  (js_find f l = None /\ Forall (fun x => f x = false) l)
  \/ (exists pre x post,
        l = pre ++ x :: post
        /\ Forall (fun y => f y = false) pre
        /\ f x = true
        /\ js_find f l = Some x).
Proof.
  induction l as [|a l IH]; simpl.
  - left. split; [reflexivity | constructor].
  - destruct (f a) eqn:Ha.
    + right. exists [], a, l. repeat split; auto.
    + destruct IH as [[Hnone Hall] | (pre & x & post & -> & Hpre & Hx & Hfind)].
      * left. split; [exact Hnone | constructor; assumption].
      * right. exists (a :: pre), x, post. repeat split; auto.
Qed.

Lemma uri_mismatch (l : list NotebookCell) (u : Uri) :
  Forall (fun c => String.eqb (Uri_toString (cell_uri c)) (Uri_toString u) = false) l ->
  Forall (fun c => cell_uri c <> u) l.
Proof.
  intros H. eapply Forall_impl; [exact H|].
  intros c Hc. apply String.eqb_neq. exact Hc.
Qed.

(** C4.  [lineAt] starts from its argument, a bare line number being
    the position at that line and column 0, and asks the engine for the
    location of it.  Either no cell of the notebook has the identity of
    that location, and the call ends with a [TypeError], returning
    nothing and leaving the converter as it is; or it returns what the
    document of the first cell with that identity gives as its line at
    the start of the location's range. *)
Theorem lineAt_resolves_cell
    (this : NotebookConcatConverter) (posOrNumber : Position + nat) :
  let location := eng_locationAt (concatDocument this) (normalized posOrNumber) in
  (forall n, normalized (inr n) = mkPosition n 0)
  /\ (forall p, normalized (inl p) = p)
  /\ ((Forall (fun c => cell_uri c <> loc_uri location) (cells (notebookDoc this))
       /\ lineAt posOrNumber this
          = (Throw (TypeError "Cannot read property 'document' of undefined"),
             this))
      \/ (exists pre c post,
            cells (notebookDoc this) = pre ++ c :: post
            /\ Forall (fun c' => cell_uri c' <> loc_uri location) pre
            /\ cell_uri c = loc_uri location
            /\ lineAt posOrNumber this
               = (doc_lineAt (document c) (start (loc_range location)), this))).
Proof.
  intros location. split; [reflexivity|]. split; [reflexivity|].
  assert (Hrun : lineAt posOrNumber this
                 = match find_cell this location with
                   | Some c =>
                       (doc_lineAt (document c) (start (loc_range location)), this)
                   | None =>
                       (Throw (TypeError
                          "Cannot read property 'document' of undefined"), this)
                   end).
  { unfold lineAt, bind, read, lift, location, normalized. simpl.
    destruct posOrNumber as [p|n];
      (match goal with |- context [find_cell ?t ?l] =>
         destruct (find_cell t l) end); reflexivity. }
  rewrite Hrun. unfold find_cell.
  destruct (js_find_spec
              (fun c => String.eqb (Uri_toString (cell_uri c))
                                   (Uri_toString (loc_uri location)))
              (cells (notebookDoc this)))
    as [[Hnone Hall] | (pre & c & post & Hsplit & Hpre & Hc & Hfind)].
  - left. rewrite Hnone. split; [|reflexivity].
    apply uri_mismatch. exact Hall.
  - right. exists pre, c, post. rewrite Hfind.
    repeat split; auto.
    + apply uri_mismatch. exact Hpre.
    + apply String.eqb_eq. exact Hc.
Qed.

(** A notebook the engine has lost track of: after the host removed
    every cell but [cellA], an engine still over both sends line 1 to
    the missing cell. *)
Example lineAt_desynchronized :
  fst (lineAt (inr 1)
         (host_edit (notebook_of [cellA]) (engine_of [cellA; cellB]) two_cells))
  = Throw (TypeError "Cannot read property 'document' of undefined").
Proof. reflexivity. Qed.

(** *** Cell documents and the concatenated document *)

(** C6.  [getConcatDocument] answers with the converter itself when the
    engine counts the document's identity among its cells, that is when
    [isCellOfDocument] holds of it, and with the document otherwise;
    [isCellOfDocument] is the engine's [contains]. *)
Theorem getConcatDocument_dispatch
    (this : NotebookConcatConverter) (d : TextDocument) (id : Uri) :
  getConcatDocument this d
  = (if eng_contains (concatDocument this) (doc_uri d) then This this else Cell d)
  /\ getConcatDocument this d
     = (if isCellOfDocument this (doc_uri d) then This this else Cell d)
  /\ (isCellOfDocument this id = true <-> eng_contains (concatDocument this) id = true).
Proof. repeat split; auto. Qed.

Example getConcatDocument_own_cell :
  getConcatDocument two_cells (document cellB) = This two_cells.
Proof. reflexivity. Qed.

Example getConcatDocument_foreign :
  getConcatDocument two_cells (lines_document "file:///work/other.py" ["x"])
  = Cell (lines_document "file:///work/other.py" ["x"]).
Proof. reflexivity. Qed.

(** *** Hovers *)

(** C7.  A [null] or [undefined] hover, and a hover without a range,
    comes back as it is; a hover with a range comes back with that range
    sent through [toIncomingRange] and its contents untouched. *)
Theorem toIncomingHover_range_only
    (this : NotebookConcatConverter) (cell : TextDocument) (h : Nullable Hover) :
  match h with
  | Val h0 =>
      match hover_range h0 with
      | Val r =>
          exists h1,
            toIncomingHover this cell h = Val h1
            /\ hover_range h1 = Val (toIncomingRange this r)
            /\ hover_contents h1 = hover_contents h0
      | _ => toIncomingHover this cell h = h
      end
  | _ => toIncomingHover this cell h = h
  end.
Proof.
  destruct h as [| |h0]; try reflexivity.
  simpl. destruct (hover_range h0) as [| |r]; try reflexivity.
  eexists. repeat split.
Qed.

(** *** Change events *)

(** C8.  The outgoing change event carries [getConcatDocument] of the
    cell document and as many content changes as the cell event, in the
    same order; each has the text and the range length of the original,
    its range sent through [toOutgoingRange] and its range offset
    through [toOutgoingOffset]. *)
Theorem toOutgoingChangeEvent_frame
    (this : NotebookConcatConverter) (e : TextDocumentChangeEvent) :
  let out := toOutgoingChangeEvent this e in
  out_document out = getConcatDocument this (ev_document e)
  /\ length (out_contentChanges out) = length (contentChanges e)
  /\ Forall2
       (fun ev ev' =>
          same_change_payload ev ev'
          /\ ev_range ev' = toOutgoingRange this (ev_document e) (ev_range ev)
          /\ ev_rangeOffset ev'
             = toOutgoingOffset this (ev_document e) (ev_rangeOffset ev))
       (contentChanges e) (out_contentChanges out).
Proof.
  intros out. split; [reflexivity|]. split.
  - unfold out. simpl. rewrite length_map. reflexivity.
  - unfold out. simpl.
    induction (contentChanges e) as [|ev evs IH]; simpl; constructor.
    + repeat split.
    + exact IH.
Qed.

(** *** Completions *)

Lemma toIncomingCompletion_rewrites this item :
  range_rewritten (toIncomingRange this) item (toIncomingCompletion this item).
Proof.
  unfold range_rewritten, same_item_fields, toIncomingCompletion.
  destruct (item_range item) as [|r|ins rep] eqn:Hr; simpl;
    rewrite ?Hr; repeat split; reflexivity.
Qed.

(** C9.  A completion list comes back as a completion list with its
    [isIncomplete] untouched and with the images of its items under
    [toIncomingCompletion], in order: an item with a simple range has
    that range sent through [toIncomingRange], an item with an
    inserting/replacing pair each of the two, an item without a range is
    the same item, and nothing else of an item changes. *)
Theorem toIncomingCompletions_wrapper
    (this : NotebookConcatConverter) (cell : TextDocument) (w : CompletionList) :
  exists w',
    toIncomingCompletions this cell (CompletionWrapper w) = CompletionWrapper w'
    /\ isIncomplete w' = isIncomplete w
    /\ items w' = map (toIncomingCompletion this) (items w)
    /\ Forall2 (range_rewritten (toIncomingRange this)) (items w) (items w').
Proof.
  eexists. split; [reflexivity|]. simpl. repeat split.
  induction (items w) as [|item l IH]; simpl; constructor.
  - apply toIncomingCompletion_rewrites.
  - exact IH.
Qed.

(** *** The payload translations on the two-cell notebook *)

Example two_cells_toIncomingRange :
  toIncomingRange two_cells (mkRange (mkPosition 1 0) (mkPosition 1 5))
  = mkRange (mkPosition 0 0) (mkPosition 0 5).
Proof. reflexivity. Qed.

Example two_cells_toOutgoingRange :
  toOutgoingRange two_cells (document cellB)
    (mkRange (mkPosition 0 0) (mkPosition 0 5))
  = mkRange (mkPosition 1 0) (mkPosition 1 5).
Proof. reflexivity. Qed.

Example two_cells_hover_without_range :
  toIncomingHover two_cells (document cellB) (Val (mkHover ["int"] Null))
  = Val (mkHover ["int"] Null).
Proof. reflexivity. Qed.

Example two_cells_hover_with_range :
  toIncomingHover two_cells (document cellB)
    (Val (mkHover ["int"] (Val (mkRange (mkPosition 1 0) (mkPosition 1 5)))))
  = Val (mkHover ["int"] (Val (mkRange (mkPosition 0 0) (mkPosition 0 5)))).
Proof. reflexivity. Qed.

Example two_cells_version_after_two_notifications :
  version (after [Notification; Get_lineCount; Call_save; Notification] two_cells)
  = 3%Z.
Proof. reflexivity. Qed.

(** ** Further properties of the class *)

(** *** Ranges built by the translations *)

Lemma isBefore_asym a b : isBefore a b = true -> isBefore b a = false.
Proof.
  unfold isBefore.
  destruct (line a <? line b) eqn:Hab, (line b <? line a) eqn:Hba; auto;
    try (apply Nat.ltb_lt in Hab; apply Nat.ltb_lt in Hba; lia).
  intros H. apply Nat.ltb_lt in H. apply Nat.ltb_ge. lia.
Qed.

Lemma isBefore_neither a b :
  isBefore a b = false -> isBefore b a = false -> a = b.
Proof.
  unfold isBefore. destruct a as [la ca], b as [lb cb]. simpl.
  destruct (la <? lb) eqn:Hab; [discriminate|].
  destruct (lb <? la) eqn:Hba; [discriminate|].
  intros H1 H2.
  apply Nat.ltb_ge in Hab, Hba, H1, H2.
  f_equal; lia.
Qed.

Lemma new_Range_ordered s e : ordered (new_Range s e).
Proof.
  unfold ordered, new_Range. destruct (isBefore s e) eqn:Hse; simpl.
  - apply isBefore_asym. exact Hse.
  - exact Hse.
Qed.

Lemma new_Range_of_ordered r : ordered r -> new_Range (start r) (end_ r) = r.
Proof.
  unfold ordered, new_Range. destruct r as [s e]. simpl. intros Hes.
  destruct (isBefore s e) eqn:Hse; [reflexivity|].
  rewrite (isBefore_neither s e Hse Hes). reflexivity.
Qed.

Lemma new_Range_comm s e : new_Range s e = new_Range e s.
Proof.
  unfold new_Range.
  destruct (isBefore s e) eqn:Hse.
  - rewrite (isBefore_asym s e Hse). reflexivity.
  - destruct (isBefore e s) eqn:Hes; [reflexivity|].
    rewrite (isBefore_neither s e Hse Hes). reflexivity.
Qed.

Lemma new_Range_cases s e :
  (new_Range s e = mkRange s e /\ isBefore s e = true)
  \/ (new_Range s e = mkRange e s /\ isBefore s e = false).
Proof. unfold new_Range. destruct (isBefore s e); auto. Qed.

(** X1.  [toOutgoingRange] translates the two ends with
    [toOutgoingPosition] and builds a range from them: the result is
    never inverted, the two translated ends being swapped when the end
    comes out before the start, and a collapsed range stays collapsed. *)
Theorem toOutgoingRange_ends
    (this : NotebookConcatConverter) (cell : TextDocument) (r : Range) :
  let S := toOutgoingPosition this cell (start r) in
  let E := toOutgoingPosition this cell (end_ r) in
  ordered (toOutgoingRange this cell r)
  /\ ((toOutgoingRange this cell r = mkRange S E /\ isBefore S E = true)
      \/ (toOutgoingRange this cell r = mkRange E S /\ isBefore S E = false))
  /\ (forall p, toOutgoingRange this cell (mkRange p p)
                = mkRange (toOutgoingPosition this cell p)
                          (toOutgoingPosition this cell p)).
Proof.
  intros S E. unfold toOutgoingRange. fold S E. repeat split.
  - apply new_Range_ordered.
  - apply new_Range_cases.
  - intros p. simpl. apply new_Range_same.
Qed.

(** X2.  [toIncomingRange] never returns an inverted range either: it
    takes the local start of the start's location and the local end of
    the end's location, whatever cells the two lie in, and swaps them
    when the second is before the first. *)
Theorem toIncomingRange_ends (this : NotebookConcatConverter) (r : Range) :
  let s := start (loc_range (eng_locationAt (concatDocument this) (start r))) in
  let e := end_ (loc_range (eng_locationAt (concatDocument this) (end_ r))) in
  ordered (toIncomingRange this r)
  /\ ((toIncomingRange this r = mkRange s e /\ isBefore s e = true)
      \/ (toIncomingRange this r = mkRange e s /\ isBefore s e = false)).
Proof.
  intros s e. unfold toIncomingRange. fold s e. split.
  - apply new_Range_ordered.
  - apply new_Range_cases.
Qed.

(** A range over two cells: its start is on line 0 of the first cell,
    column 7, its end on line 0 of the second, column 2; the local ends
    come out swapped. *)
Example two_cells_toIncomingRange_across :
  toIncomingRange two_cells (mkRange (mkPosition 0 7) (mkPosition 1 2))
  = mkRange (mkPosition 0 2) (mkPosition 0 7).
Proof. reflexivity. Qed.

(** *** Round trips of a range *)

Lemma toIncomingRange_point this r us ps ue pe :
  eng_locationAt (concatDocument this) (start r) = new_Location us ps ->
  eng_locationAt (concatDocument this) (end_ r) = new_Location ue pe ->
  toIncomingRange this r = new_Range ps pe.
Proof.
  intros Hs He. unfold toIncomingRange.
  rewrite Hs, He, !new_Location_range. reflexivity.
Qed.

(** X3.  With a mutually inverse engine, a concatenated range that is
    not inverted and whose two ends the engine locates in one cell comes
    back unchanged from [toIncomingRange] followed by [toOutgoingRange]
    with that cell. *)
Theorem incoming_outgoing_range_roundtrip
    (this : NotebookConcatConverter) (cell : TextDocument) (r : Range) :
  mutually_inverse (concatDocument this) ->
  ordered r ->
  loc_uri (eng_locationAt (concatDocument this) (start r)) = doc_uri cell ->
  loc_uri (eng_locationAt (concatDocument this) (end_ r)) = doc_uri cell ->
  toOutgoingRange this cell (toIncomingRange this r) = r.
Proof.
  intros He Hr Hus Hue.
  destruct (locationAt_point _ He (start r)) as (us & ps & Hs).
  destruct (locationAt_point _ He (end_ r)) as (ue & pe & Hee).
  assert (us = doc_uri cell) as -> by (rewrite Hs in Hus; exact Hus).
  assert (ue = doc_uri cell) as -> by (rewrite Hee in Hue; exact Hue).
  assert (Hps : eng_positionAt (concatDocument this)
                  (new_Location (doc_uri cell) ps) = start r).
  { rewrite <- Hs. apply (positionAt_locationAt _ He). }
  assert (Hpe : eng_positionAt (concatDocument this)
                  (new_Location (doc_uri cell) pe) = end_ r).
  { rewrite <- Hee. apply (positionAt_locationAt _ He). }
  rewrite (toIncomingRange_point this r _ ps _ pe Hs Hee).
  unfold toOutgoingRange.
  destruct (new_Range_cases ps pe) as [[-> _] | [-> _]]; simpl;
    rewrite Hps, Hpe.
  - apply new_Range_of_ordered. exact Hr.
  - rewrite new_Range_comm. apply new_Range_of_ordered. exact Hr.
Qed.

Lemma incoming_outgoing_range_roundtrip_witness :
  toOutgoingRange two_cells (document cellB)
    (toIncomingRange two_cells (mkRange (mkPosition 1 2) (mkPosition 1 6)))
  = mkRange (mkPosition 1 2) (mkPosition 1 6).
Proof.
  apply (incoming_outgoing_range_roundtrip two_cells (document cellB)
           (mkRange (mkPosition 1 2) (mkPosition 1 6))).
  - exact engine_of_two_cells_inverse.
  - reflexivity.
  - reflexivity.
  - reflexivity.
Defined.

(** X4.  In the other direction: a cell-local range that is not inverted
    comes back unchanged from [toOutgoingRange] followed by
    [toIncomingRange], when the engine locates the concatenated position
    of each of its two ends back at that end in that cell. *)
Theorem outgoing_incoming_range_roundtrip
    (this : NotebookConcatConverter) (cell : TextDocument) (r : Range) :
  ordered r ->
  (forall p, p = start r \/ p = end_ r ->
     eng_locationAt (concatDocument this)
       (eng_positionAt (concatDocument this) (new_Location (doc_uri cell) p))
     = new_Location (doc_uri cell) p) ->
  toIncomingRange this (toOutgoingRange this cell r) = r.
Proof.
  intros Hr Hback.
  pose proof (Hback (start r) (or_introl eq_refl)) as Hs.
  pose proof (Hback (end_ r) (or_intror eq_refl)) as He.
  unfold toOutgoingRange.
  destruct (new_Range_cases
              (eng_positionAt (concatDocument this)
                 (new_Location (doc_uri cell) (start r)))
              (eng_positionAt (concatDocument this)
                 (new_Location (doc_uri cell) (end_ r))))
    as [[-> _] | [-> _]].
  - erewrite toIncomingRange_point; [ | simpl; exact Hs | simpl; exact He ].
    apply new_Range_of_ordered. exact Hr.
  - erewrite toIncomingRange_point; [ | simpl; exact He | simpl; exact Hs ].
    rewrite new_Range_comm. apply new_Range_of_ordered. exact Hr.
Qed.

Lemma outgoing_incoming_range_roundtrip_witness :
  toIncomingRange two_cells
    (toOutgoingRange two_cells (document cellB)
       (mkRange (mkPosition 0 2) (mkPosition 0 6)))
  = mkRange (mkPosition 0 2) (mkPosition 0 6).
Proof.
  apply (outgoing_incoming_range_roundtrip two_cells (document cellB)
           (mkRange (mkPosition 0 2) (mkPosition 0 6))).
  - reflexivity.
  - intros p [-> | ->]; reflexivity.
Defined.

(** *** Word ranges *)



(** *** Offsets *)


(** *** Shapes of completions *)

Lemma Forall2_toIncomingCompletion this l :
  Forall2 (range_rewritten (toIncomingRange this)) l
          (map (toIncomingCompletion this) l).
Proof.
  induction l as [|item l IH]; simpl; constructor.
  - apply toIncomingCompletion_rewrites.
  - exact IH.
Qed.

(** X7.  [toIncomingCompletions] answers in the shape it was given:
    [null] for [null], [undefined] for [undefined], a bare array for a
    bare array (the empty array included) and a list object for a list
    object; arrays keep their length and order, each item having its
    range rewritten and nothing else, its additional text edits
    included. *)
Theorem toIncomingCompletions_shape
    (this : NotebookConcatConverter) (cell : TextDocument) (cs : Completions) :
  match cs with
  | CompletionsNull => toIncomingCompletions this cell cs = CompletionsNull
  | CompletionsUndefined =>
      toIncomingCompletions this cell cs = CompletionsUndefined
  | CompletionArray l =>
      exists l',
        toIncomingCompletions this cell cs = CompletionArray l'
        /\ length l' = length l
        /\ Forall2 (range_rewritten (toIncomingRange this)) l l'
        /\ Forall2 (fun item item' =>
                      additionalTextEdits item' = additionalTextEdits item) l l'
  | CompletionWrapper w =>
      exists w',
        toIncomingCompletions this cell cs = CompletionWrapper w'
        /\ length (items w') = length (items w)
  end.
Proof.
  destruct cs as [| |l|w]; try reflexivity.
  - exists (map (toIncomingCompletion this) l). split; [reflexivity|].
    split; [apply length_map|].
    split; [apply Forall2_toIncomingCompletion|].
    eapply Forall2_impl; [apply Forall2_toIncomingCompletion|].
    intros item item' [Hsame _]. unfold same_item_fields in Hsame. tauto.
  - eexists. split; [reflexivity|]. simpl. apply length_map.
Qed.

(** *** The synthetic identity *)

Lemma strip_hyphens_length s :
  String.length (strip_hyphens s) + hyphens s = String.length s.
Proof.
  induction s as [|c s IH]; simpl; [reflexivity|].
  destruct (Ascii.eqb c "-"); simpl; lia.
Qed.

Lemma strip_hyphens_free s : hyphens (strip_hyphens s) = 0.
Proof.
  induction s as [|c s IH]; simpl; [reflexivity|].
  destruct (Ascii.eqb c "-") eqn:Hc; simpl; [exact IH|].
  rewrite Hc. exact IH.
Qed.

(** X8.  The constructor names the view by joining the directory of the
    notebook's path with the hidden-file template filled with the
    UUID's characters other than hyphens: the token has no hyphen, and
    is as long as the UUID less its hyphens; [uri] is [Uri.file] of
    [fileName], and the new converter has fired neither open nor
    close. *)
Theorem constructor_identity
    (pf : Platform) (nb : NotebookDocument) (api : IVSCodeNotebook)
    (selector : DocumentSelector) :
  let this := new_NotebookConcatConverter pf nb api selector in
  let token := strip_hyphens (uuid pf) in
  fileName this
  = path_join pf (path_dirname pf (nb_fsPath nb))
      (format pf (HiddenFileFormatString pf) token)
  /\ hyphens token = 0
  /\ String.length token + hyphens (uuid pf) = String.length (uuid pf)
  /\ uri this = Uri_file pf (fileName this)
  /\ firedOpen this = false /\ firedClose this = false
  /\ concatDocument this = createConcatTextDocument api nb selector.
Proof.
  intros this token. repeat split.
  - apply strip_hyphens_free.
  - apply strip_hyphens_length.
Qed.

Lemma handle_fields ev this :
  let this' := snd (handle ev this) in
  dummyUri this' = dummyUri this
  /\ dummyFilePath this' = dummyFilePath this
  /\ firedOpen this' = firedOpen this
  /\ firedClose this' = firedClose this
  /\ notebookApi this' = notebookApi this
  /\ (is_host_edit ev = false ->
      notebookDoc this' = notebookDoc this
      /\ concatDocument this' = concatDocument this).
Proof.
  destruct (is_query ev) eqn:Hq.
  - simpl. rewrite (handle_query ev Hq this). repeat split; reflexivity.
  - destruct ev; try discriminate; simpl; repeat split; discriminate.
Qed.

(** X9.  Nothing that happens to a converter changes its synthetic
    identity: after any sequence of events [uri] and [fileName] are
    what the constructor made them, and the notebook and the engine it
    refers to are replaced by host edits only. *)
Theorem identity_stable (evs : list Event) (this : NotebookConcatConverter) :
  uri (after evs this) = uri this
  /\ fileName (after evs this) = fileName this
  /\ firedOpen (after evs this) = firedOpen this
  /\ firedClose (after evs this) = firedClose this
  /\ (forallb (fun ev => negb (is_host_edit ev)) evs = true ->
      notebookDoc (after evs this) = notebookDoc this
      /\ concatDocument (after evs this) = concatDocument this).
Proof.
  induction evs as [|ev evs IH] using rev_ind.
  - repeat split; reflexivity.
  - rewrite after_app. simpl.
    destruct (handle_fields ev (after evs this))
      as (Hu & Hf & Ho & Hc & _ & Hrefs).
    destruct IH as (IHu & IHf & IHo & IHc & IHrefs).
    unfold uri, fileName in *.
    rewrite Hu, Hf, Ho, Hc. repeat split; auto.
    + rewrite forallb_app in H. apply andb_true_iff in H as [Hevs Hev].
      simpl in Hev. rewrite andb_true_r in Hev. apply negb_true_iff in Hev.
      destruct (Hrefs Hev) as [-> _]. apply IHrefs. exact Hevs.
    + rewrite forallb_app in H. apply andb_true_iff in H as [Hevs Hev].
      simpl in Hev. rewrite andb_true_r in Hev. apply negb_true_iff in Hev.
      destruct (Hrefs Hev) as [_ ->]. apply IHrefs. exact Hevs.
Qed.

(** *** Calls that do not change the converter *)

(** X10.  A sequence of property reads and method calls, with no
    notification and no host edit among them, leaves the converter
    exactly as it was, also when some of the calls throw. *)
Theorem queries_leave_unchanged
    (evs : list Event) (this : NotebookConcatConverter) :
  forallb is_query evs = true -> after evs this = this.
Proof.
  revert this. induction evs as [|ev evs IH]; intros this Hq; [reflexivity|].
  simpl in Hq. apply andb_true_iff in Hq as [Hev Hevs].
  unfold after. simpl. rewrite (handle_query ev Hev this).
  apply IH. exact Hevs.
Qed.

Lemma queries_leave_unchanged_witness :
  fst (handle Call_save no_cells)
  = Throw (Error "Not implemented")
  /\ fst (handle Get_lineCount no_cells)
     = Throw (TypeError "Reduce of empty array with no initial value")
  /\ after [Call_save; Get_lineCount; Call_lineAt (inr 7); Get_version] no_cells
     = no_cells.
Proof.
  split; [reflexivity|]. split; [reflexivity|].
  apply (queries_leave_unchanged
           [Call_save; Get_lineCount; Call_lineAt (inr 7); Get_version] no_cells).
  reflexivity.
Defined.

(** *** Line count on a notebook with cells *)

(** X11.  On a notebook with at least one cell [lineCount] returns the
    sum of the line counts of the cells, which is at least the line
    count of each cell, and leaves the converter as it is. *)
Theorem lineCount_sums_cells (this : NotebookConcatConverter) :
  cells (notebookDoc this) <> [] ->
  exists n,
    lineCount this = (Ok n, this)
    /\ n = sum_list (cell_lineCounts this)
    /\ Forall (fun c => doc_lineCount (document c) <= n) (cells (notebookDoc this)).
Proof.
  intros Hne. exists (sum_list (cell_lineCounts this)).
  split; [apply lineCount_sum; exact Hne|]. split; [reflexivity|].
  unfold cell_lineCounts. clear Hne.
  induction (cells (notebookDoc this)) as [|c cs IH]; constructor.
  - simpl. lia.
  - eapply Forall_impl; [exact IH|]. intros c' Hc'. simpl in *. lia.
Qed.

Lemma lineCount_sums_cells_witness :
  cells (notebookDoc two_cells) <> []
  /\ exists n,
       lineCount two_cells = (Ok n, two_cells)
       /\ n = sum_list (cell_lineCounts two_cells)
       /\ Forall (fun c => doc_lineCount (document c) <= n)
                 (cells (notebookDoc two_cells)).
Proof.
  split; [discriminate|].
  apply (lineCount_sums_cells two_cells). discriminate.
Defined.

(** X12.  The line count does not depend on the order of the cells: two
    converters whose notebooks hold the same cells in different orders
    read the same [lineCount], the same error when there is no cell. *)
Theorem lineCount_order_irrelevant (this this' : NotebookConcatConverter) :
  cells (notebookDoc this) ≡ₚ cells (notebookDoc this') ->
  fst (lineCount this) = fst (lineCount this').
Proof.
  intros Hperm.
  destruct (cells (notebookDoc this)) as [|c cs] eqn:Hc.
  - apply Permutation_nil in Hperm.
    unfold lineCount, bind, read, lift. simpl. rewrite Hc, Hperm. reflexivity.
  - assert (Hne : cells (notebookDoc this) <> []) by (rewrite Hc; discriminate).
    assert (Hne' : cells (notebookDoc this') <> []).
    { intros Hnil. rewrite Hnil in Hperm.
      symmetry in Hperm. apply Permutation_nil in Hperm. discriminate. }
    rewrite (lineCount_sum this Hne), (lineCount_sum this' Hne'). simpl.
    f_equal. unfold cell_lineCounts. rewrite Hc.
    apply sum_list_with_Permutation_proper.
    apply Permutation_map. exact Hperm.
Qed.

Lemma lineCount_order_irrelevant_witness :
  fst (lineCount two_cells) = fst (lineCount two_cells_reversed).
Proof.
  apply (lineCount_order_irrelevant two_cells two_cells_reversed).
  simpl. apply perm_swap.
Defined.

(** *** The version as a change detector *)

(** X13.  Two reads of [version] around a sequence of events agree
    exactly when no change notification arrived in between, and the
    later read is larger as soon as one did; a host edit that the
    engine does not report leaves the version where it was. *)
Theorem version_detects_notifications
    (evs : list Event) (this : NotebookConcatConverter) :
  (version (after evs this) = version this <-> notifications evs = 0)
  /\ (0 < notifications evs <-> (version this < version (after evs this))%Z)
  /\ (forall nb e, version (after [Host_edit nb e] this) = version this).
Proof.
  rewrite after_version. repeat split; try lia.
Qed.
